(** * FastHTML AppImage demo: a shallow embedding of [src/app.py]

    The module-level state ([todos], [counter]), the four request handlers,
    the start-up code that resolves the port and the working directory,
    [open_browser] and the main block are embedded as Rocq functions.  Python's [int] is [Z]
    (unbounded, no wrap-around), [str] is [string], [os.environ] is a
    [gmap string string], a raised exception is the [Raise] branch of
    [result], and everything the code asks the operating system for (the
    process id, the clock, the file system, sockets, process spawning) is an
    explicit argument. *)

From Stdlib Require Import ZArith Ascii String DecimalString.
From stdpp Require Import base option list strings gmap.

Open Scope Z_scope.
Open Scope string_scope.

(** ** Python values used by the program *)

(** [str(n)] and [f"{n}"] for a Python [int]: decimal digits, a leading
    minus sign for negative numbers, no padding. *)
Definition str_of_int (n : Z) : string := NilZero.string_of_int (Z.to_int n).

(** Truthiness of [os.environ.get(key)]: [None] and the empty string are
    false, every other string is true. *)
Definition truthy (v : option string) : bool :=
  match v with
  | None => false
  | Some s => if decide (s = "") then false else true
  end.

(** [os.environ.get(key, default)]. *)
Definition environ_get (env : gmap string string) (key default : string) : string :=
  match env !! key with
  | Some v => v
  | None => default
  end.

(** Exceptions the modelled code can raise. *)
Inductive exn : Type :=
| ValueError
| IndexError
| FileExistsError
| FileNotFoundError
| PermissionError
| OSError.

Inductive result (A : Type) : Type :=
| Ok (a : A)
| Raise (e : exn).
Arguments Ok {A} a.
Arguments Raise {A} e.

(** ** Markup trees

    FastHTML components build a tree [FT(tag, children, attrs)].  A child is
    a string, [None], or another tree.  Keyword arguments are kept in the
    order and under the names the source writes them. *)

Inductive attr_val : Type :=
| AStr (s : string)
| ABool (b : bool).

Local Unset Elimination Schemes.
Inductive FT : Type :=
| Text (s : string)
| NoneChild
| Elem (tag : string) (children : list FT) (attrs : list (string * attr_val)).
Local Set Elimination Schemes.

Definition Span := Elem "span".
Definition Ul := Elem "ul".
Definition Li := Elem "li".
Definition Div := Elem "div".
Definition H1 := Elem "h1".
Definition H2 := Elem "h2".
Definition P := Elem "p".
Definition Hr := Elem "hr" [] [].
Definition Button := Elem "button".
Definition Form := Elem "form".
Definition Input := Elem "input".
Definition Container := Elem "container".

(** ** Demo state (lines 49-51) *)

Record State : Type := mkState {
  todos : list string;
  counter : Z
}.

(** [todos = []], [counter = 0]. *)
Definition init : State := {| todos := []; counter := 0 |}.

(** ** [increment] (lines 124-128) *)

Definition increment (st : State) : State * FT :=
  let st' := {| todos := todos st; counter := counter st + 1 |} in
  (st', Span [Text ("Count: " +:+ str_of_int (counter st'))]
             [("id", AStr "counter")]).

(** ** [add_todo] (lines 130-133)

    [todos.append(task)] mutates the module-level list; the response is
    built from a comprehension over it, a new list of [Li] nodes. *)

Definition add_todo (task : string) (st : State) : State * FT :=
  let st' := {| todos := todos st ++ [task]; counter := counter st |} in
  (st', Ul (map (fun todo => Li [Text todo] []) (todos st'))
           [("id", AStr "todo-list")]).

(** [n] calls of [increment], one after the other. *)
Definition increments (n : nat) (st : State) : State :=
  Nat.iter n (fun s => fst (increment s)) st.

(** One [add_todo] call per element of [tasks], in order. *)
Definition add_todos (tasks : list string) (st : State) : State :=
  fold_left (fun s task => fst (add_todo task s)) tasks st.

(** ** Strings: the builtins the program calls

    Strings are sequences of 8-bit characters; the builtins are modelled on
    ASCII input, where CPython's behaviour is fixed by the tables below. *)

(** [Py_ISSPACE]: the whitespace [int] strips. *)
Definition is_space (c : ascii) : bool :=
  let n := nat_of_ascii c in
  ((9 <=? n) && (n <=? 13))%nat || (n =? 32)%nat.

(** [str.isspace] on ASCII: [str.split()] also splits at 0x1c..0x1f. *)
Definition is_split_space (c : ascii) : bool :=
  let n := nat_of_ascii c in
  is_space c || ((28 <=? n) && (n <=? 31))%nat.

Definition digit_val (c : ascii) : option Z :=
  let n := nat_of_ascii c in
  if ((48 <=? n) && (n <=? 57))%nat then Some (Z.of_nat n - 48) else None.

Fixpoint lstrip (s : string) : string :=
  match s with
  | String c r => if is_space c then lstrip r else s
  | EmptyString => s
  end.

Fixpoint all_space (s : string) : bool :=
  match s with
  | String c r => is_space c && all_space r
  | EmptyString => true
  end.

(** The digit loop of [PyLong_FromString] in base 10.  [need_digit] holds
    at the start and after an underscore: the next character must then be
    a digit.  Returns the value, the number of digits read and the rest. *)
Fixpoint int_digits (s : string) (acc : Z) (ndigits : nat) (need_digit : bool)
  : option (Z * nat * string) :=
  match s with
  | EmptyString => if need_digit then None else Some (acc, ndigits, s)
  | String c r =>
      match digit_val c with
      | Some d => int_digits r (10 * acc + d) (S ndigits) false
      | None =>
          if need_digit then None
          else if Ascii.eqb c "_" then int_digits r acc ndigits true
          else Some (acc, ndigits, s)
      end
  end.

(** [sys.int_info.default_max_str_digits]. *)
Definition max_str_digits : nat := 4300.

(** [int(s)] on ASCII input, under the default digit limit: optional
    surrounding whitespace, an optional sign, decimal digits with single
    underscores between them; [ValueError] otherwise, and for more than
    [max_str_digits] digits.  Where it returns [Ok n], [int] returns
    [n]. *)
Definition py_int (s : string) : result Z :=
  let s1 := lstrip s in
  let '(sign, s2) :=
    match s1 with
    | String "+" r => (1, r)
    | String "-" r => (-1, r)
    | _ => (1, s1)
    end in
  match int_digits s2 0 0 true with
  | Some (v, nd, rest) =>
      if all_space rest && (nd <=? max_str_digits)%nat
      then Ok (sign * v) else Raise ValueError
  | None => Raise ValueError
  end.

Fixpoint split_lstrip (s : string) : string :=
  match s with
  | String c r => if is_split_space c then split_lstrip r else s
  | EmptyString => s
  end.

Fixpoint take_word (s : string) : string :=
  match s with
  | String c r => if is_split_space c then EmptyString else String c (take_word r)
  | EmptyString => EmptyString
  end.

(** [s.split()[0]]: the first whitespace-separated word, [IndexError]
    when there is none. *)
Definition split_first (s : string) : result string :=
  match split_lstrip s with
  | EmptyString => Raise IndexError
  | w => Ok (take_word w)
  end.

Definition lower_char (c : ascii) : ascii :=
  let n := nat_of_ascii c in
  if ((65 <=? n) && (n <=? 90))%nat then ascii_of_nat (n + 32) else c.

(** [s.lower()]. *)
Fixpoint lower (s : string) : string :=
  match s with
  | String c r => String (lower_char c) (lower r)
  | EmptyString => EmptyString
  end.

Fixpoint ends_with_sep (s : string) : bool :=
  match s with
  | EmptyString => false
  | String c EmptyString => Ascii.eqb c "/"
  | String _ r => ends_with_sep r
  end.

(** [os.path.join(a, b)] of [posixpath]. *)
Definition path_join (a b : string) : string :=
  match b with
  | String "/" _ => b
  | _ =>
      match a with
      | EmptyString => b
      | _ => if ends_with_sep a then a +:+ b else a +:+ "/" +:+ b
      end
  end.

(** ** [datetime.now().strftime('%Y-%m-%d %H:%M:%S')] *)

Record datetime : Type := mkDatetime {
  year : Z; month : Z; day : Z; hour : Z; minute : Z; second : Z
}.

Definition pad2 (n : Z) : string :=
  if (n <? 10)%Z then "0" +:+ str_of_int n else str_of_int n.

(** For the four-digit years [datetime.now()] returns, [%Y] is the year in
    decimal. *)
Definition strftime (t : datetime) : string :=
  str_of_int (year t) +:+ "-" +:+ pad2 (month t) +:+ "-" +:+ pad2 (day t)
  +:+ " " +:+ pad2 (hour t) +:+ ":" +:+ pad2 (minute t) +:+ ":" +:+ pad2 (second t).

(** ** What a handler reads from the process at call time *)

Record Ambient : Type := mkAmbient {
  environ : gmap string string;   (* os.environ *)
  getpid : Z;                     (* os.getpid() *)
  getcwd : string;                (* os.getcwd(), for a directory that exists *)
  datetime_now : datetime;        (* datetime.now() *)
  platform_system : string;       (* platform.system() *)
  platform_release : string;      (* platform.release() *)
  sys_version : string            (* sys.version *)
}.

(** Module-level names bound once by the start-up code (lines 26-38). *)
Record Globals : Type := mkGlobals {
  PORT : Z;
  HOST : string;
  WORK_DIR : string
}.

(** ** [system_info] (lines 135-160) *)

Definition refresh_button : FT :=
  Button [Text "Refresh"]
         [("hx_get", AStr "/system-info"); ("hx_target", AStr "#system-info");
          ("hx_swap", AStr "outerHTML")].

Definition system_info (g : Globals) (a : Ambient) : FT :=
  let info_list :=
    if truthy (environ a !! "APPIMAGE") then
      Ul [ Li [Text ("Process ID: " +:+ str_of_int (getpid a))] [];
           Li [Text ("Working Directory: " +:+ WORK_DIR g)] [];
           Li [Text "AppImage: Yes"] [];
           Li [Text ("Timestamp: " +:+ strftime (datetime_now a))] [] ] []
    else
      Ul [ Li [Text ("Process ID: " +:+ str_of_int (getpid a))] [];
           Li [Text ("Working Directory: " +:+ getcwd a)] [];
           Li [Text "AppImage: No"] [];
           Li [Text ("Timestamp: " +:+ strftime (datetime_now a))] [] ] [] in
  Div [ H2 [Text "System Information"] []; info_list; refresh_button ]
      [("id", AStr "system-info")].

(** ** [get] (lines 53-122) *)

Definition get (g : Globals) (a : Ambient) (st : State) : result FT :=
  match split_first (sys_version a) with
  | Raise e => Raise e
  | Ok pyver =>
    Ok (Container [
      H1 [Text "FastHTML AppImage Demo"] [];
      P [Text ("Running on " +:+ platform_system a +:+ " " +:+ platform_release a)] [];
      P [Text ("Python " +:+ pyver +:+ " | Server: " +:+ HOST g +:+ ":"
               +:+ str_of_int (PORT g))] [];
      Hr;
      Div [ H2 [Text "Counter Demo"] [];
            Div [ Button [Text "Increment"]
                         [("hx_post", AStr "/increment"); ("hx_target", AStr "#counter");
                          ("hx_swap", AStr "innerHTML")];
                  Span [Text ("Count: " +:+ str_of_int (counter st))]
                       [("id", AStr "counter"); ("style", AStr "margin-left: 1rem;")] ] []
          ] [];
      Hr;
      Div [ H2 [Text "Todo List Demo"] [];
            Form [ Input [] [("type", AStr "text"); ("name", AStr "task");
                             ("placeholder", AStr "Enter a task...");
                             ("required", ABool true)];
                   Button [Text "Add Task"] [("type", AStr "submit")] ]
                 [("hx_post", AStr "/add-todo"); ("hx_target", AStr "#todo-list");
                  ("hx_swap", AStr "innerHTML");
                  ("hx_on", AStr "htmx:afterRequest: this.reset()")];
            Ul (map (fun todo => Li [Text todo] []) (todos st))
               [("id", AStr "todo-list")] ] [];
      Hr;
      Div [ H2 [Text "System Information"] [];
            (if negb (truthy (environ a !! "APPIMAGE")) then
               Ul [ Li [Text ("Process ID: " +:+ str_of_int (getpid a))] [];
                    Li [Text ("Working Directory: " +:+ getcwd a)] [];
                    Li [if truthy (environ a !! "APPIMAGE")
                        then Text ("Temp Directory: " +:+ WORK_DIR g)
                        else NoneChild] [];
                    Li [Text ("AppImage: " +:+
                              (if truthy (environ a !! "APPIMAGE") then "Yes" else "No"))] [];
                    Li [Text ("Timestamp: " +:+ strftime (datetime_now a))] [] ] []
             else
               Ul [ Li [Text ("Process ID: " +:+ str_of_int (getpid a))] [];
                    Li [Text ("Working Directory: " +:+ WORK_DIR g)] [];
                    Li [Text "AppImage: Yes"] [];
                    Li [Text ("Timestamp: " +:+ strftime (datetime_now a))] [] ] []);
            refresh_button ]
          [("id", AStr "system-info")];
      Hr;
      Div [ H2 [Text "Launch Options"] [];
            P [Text "You can configure how this app opens:"] [];
            Ul [ Li [Text "Set FASTHTML_BROWSER=app for standalone window mode"] [];
                 Li [Text "Set FASTHTML_BROWSER=none to not open browser automatically"] [];
                 Li [Text "Default: Opens in your default browser"] [] ] [] ] []
    ] [])
  end.

(** ** The routes (the [@rt] decorators) *)

Inductive Request : Type :=
| GetIndex                         (* GET / *)
| PostIncrement                    (* POST /increment *)
| PostAddTodo (task : string)      (* POST /add-todo *)
| GetSystemInfo.                   (* GET /system-info *)

Definition handle (g : Globals) (a : Ambient) (r : Request) (st : State)
  : State * result FT :=
  match r with
  | GetIndex => (st, get g a st)
  | PostIncrement => let '(st', ft) := increment st in (st', Ok ft)
  | PostAddTodo task => let '(st', ft) := add_todo task st in (st', Ok ft)
  | GetSystemInfo => (st, Ok (system_info g a))
  end.

(** The server handling a sequence of requests, each with the process
    facts current when it arrives. *)
Definition serve (g : Globals) (reqs : list (Ambient * Request)) (st : State) : State :=
  fold_left (fun s ar => fst (handle g (fst ar) (snd ar) s)) reqs st.

Definition is_increment (r : Request) : bool :=
  match r with PostIncrement => true | _ => false end.

(** The number of [POST /increment] requests in a sequence. *)
Definition count_increments (reqs : list (Ambient * Request)) : nat :=
  length (filter (fun ar => is_increment (snd ar) = true) reqs).

(** ** Start-up: the port (lines 19-27)

    The kernel's side of the socket calls.  [bound] holds the TCP ports
    that some socket on this host is bound to; [ephemeral] is the order in
    which the kernel examines its ephemeral range when a socket asks for
    port 0.  The kernel gives the first port of that order that is not
    bound, and fails with [OSError] when every one is taken. *)

Record Net : Type := mkNet {
  bound : gset Z;
  ephemeral : list Z
}.

Definition kernel_pick (net : Net) : option Z :=
  find (fun p => bool_decide (p ∉ bound net)) (ephemeral net).

(** The calls a socket sees, in program order. *)
Inductive sockcall : Type :=
| SockCreate                 (* socket.socket(AF_INET, SOCK_STREAM) *)
| SockBind (port : Z)        (* s.bind(('', 0)), with the port the kernel gave *)
| SockBindFailed             (* s.bind(('', 0)) raised *)
| SockReuseAddr              (* s.setsockopt(SOL_SOCKET, SO_REUSEADDR, 1) *)
| SockGetName (port : Z)     (* s.getsockname()[1] *)
| SockClose.                 (* leaving the [with closing(...)] block *)

(** [find_free_port]: the result, the kernel state afterwards and the calls
    made.  [closing] closes the socket on both exits of the block; closing
    releases the port the socket was bound to.  The creation of the socket
    is taken to succeed; the failure followed here is that of the bind. *)
Definition find_free_port (net : Net) : result Z * Net * list sockcall :=
  match kernel_pick net with
  | Some p =>
      let net1 := {| bound := bound net ∪ {[p]}; ephemeral := ephemeral net |} in
      let net2 := {| bound := bound net1 ∖ {[p]}; ephemeral := ephemeral net1 |} in
      (Ok p, net2, [SockCreate; SockBind p; SockReuseAddr; SockGetName p; SockClose])
  | None =>
      (Raise OSError, net, [SockCreate; SockBindFailed; SockClose])
  end.

(** [PORT_ENV] and [PORT] (lines 26-27). *)
Definition resolve_port (env : gmap string string) (net : Net)
  : result Z * Net * list sockcall :=
  let PORT_ENV := environ_get env "FASTHTML_PORT" "0" in
  if decide (PORT_ENV <> "0") then (py_int PORT_ENV, net, [])
  else find_free_port net.

(** [HOST] (line 28). *)
Definition resolve_host (env : gmap string string) : string :=
  environ_get env "FASTHTML_HOST" "127.0.0.1".

(** ** Start-up: the working directory (lines 32-38)

    [paths] holds every path that exists; [cwd] is the process's current
    directory; [tmpdir] is [tempfile.gettempdir()], an absolute normalised
    path, and [tmp_writable] says whether a directory can be created in
    it. *)

Record FS : Type := mkFS {
  paths : gset string;
  cwd : string;
  tmpdir : string;
  tmp_writable : bool
}.

(** The loop of [tempfile.mkdtemp(prefix=...)]: one [os.mkdir] per
    candidate name; [FileExistsError] moves on to the next name, any other
    error propagates, and running out of names raises [FileExistsError].
    [names] is what the random name generator yields, at most [TMP_MAX]
    names.  [tmpdir fs] is the directory [gettempdir()] has settled on;
    [tmp_writable fs] says whether [os.mkdir] is allowed in it now. *)
Fixpoint mkdtemp (prefix : string) (names : list string) (fs : FS)
  : result (string * FS) :=
  match names with
  | [] => Raise FileExistsError
  | name :: rest =>
      let file := path_join (tmpdir fs) (prefix +:+ name) in
      if bool_decide (file ∈ paths fs) then mkdtemp prefix rest fs
      else if tmp_writable fs then
        Ok (file, {| paths := paths fs ∪ {[file]}; cwd := cwd fs;
                     tmpdir := tmpdir fs; tmp_writable := tmp_writable fs |})
      else Raise PermissionError
  end.

(** [os.chdir(path)]. *)
Definition chdir (path : string) (fs : FS) : FS :=
  {| paths := paths fs; cwd := path; tmpdir := tmpdir fs;
     tmp_writable := tmp_writable fs |}.

(** Lines 32-38: the value bound to [WORK_DIR] and the file system
    afterwards.  [Path(...)] leaves the normalised absolute paths it is
    given here as they are; [Path.cwd()] is taken for a current directory
    that exists. *)
Definition setup_work_dir (env : gmap string string) (names : list string) (fs : FS)
  : result (string * FS) :=
  if truthy (env !! "APPIMAGE") then
    match mkdtemp "fasthtml-app-" names fs with
    | Ok (d, fs1) => Ok (d, chdir d fs1)
    | Raise e => Raise e
    end
  else Ok (cwd fs, fs).

(** ** [open_browser] (lines 162-194)

    [popen cmd] is what [subprocess.Popen(cmd, ...)] does for the command:
    [None] when the process is spawned, [Some e] when the call raises [e].
    [webbrowser.open] returns a flag, which the code discards; the trace
    keeps it. *)

Record Launcher : Type := mkLauncher {
  popen : list string -> option exn;
  webbrowser_open : string -> bool
}.

Inductive effect : Type :=
| Print (line : string)
| Popen (cmd : list string)
| WebbrowserOpen (url : string) (opened : bool).

(** Line 177-181. *)
Definition browsers (url : string) : list (list string) :=
  [ ["google-chrome"; "--app=" +:+ url];
    ["chromium"; "--app=" +:+ url];
    ["firefox"; "--new-window"; url] ].

(** How the [for] loop of lines 183-190 ends. *)
Inductive loop_exit : Type :=
| Returned              (* [return] inside the loop *)
| Exhausted             (* the list ran out *)
| Raised (e : exn).     (* an exception left the loop *)

Fixpoint try_browsers (os : Launcher) (cmds : list (list string))
  : list effect * loop_exit :=
  match cmds with
  | [] => ([], Exhausted)
  | browser_cmd :: rest =>
      match popen os browser_cmd with
      | None => ([Popen browser_cmd], Returned)
      | Some FileNotFoundError =>
          let '(tr, ex) := try_browsers os rest in (Popen browser_cmd :: tr, ex)
      | Some e => ([Popen browser_cmd], Raised e)
      end
  end.

(** Lines 192-194. *)
Definition open_default (os : Launcher) (url : string) : list effect :=
  [Print ("Opening in browser at " +:+ url);
   WebbrowserOpen url (webbrowser_open os url)].

Definition open_browser (env : gmap string string) (sys_platform : string)
    (os : Launcher) (url : string) : list effect * result unit :=
  let browser_mode := lower (environ_get env "FASTHTML_BROWSER" "default") in
  if decide (browser_mode = "none") then
    ([Print ("Server running at " +:+ url);
      Print "Browser auto-open disabled. Please open manually."], Ok tt)
  else if decide (browser_mode = "app") then
    let hello := Print ("Opening in app mode at " +:+ url) in
    if decide (sys_platform = "linux") then
      match try_browsers os (browsers url) with
      | (tr, Returned) => (hello :: tr, Ok tt)
      | (tr, Raised e) => (hello :: tr, Raise e)
      | (tr, Exhausted) => (hello :: tr ++ open_default os url, Ok tt)
      end
    else (hello :: open_default os url, Ok tt)
  else (open_default os url, Ok tt).


(** ** The main block (lines 196-212)

    The server answers the requests one after the other, each handler with
    the state the one before left.  [open_browser] is called once, by a
    [threading.Timer] thread of its own: an exception that leaves the
    thread's function ends that thread and no other, so the request loop
    does not see it.  The timer fires at some point of the request
    sequence: after the requests [before], ahead of the requests
    [after]. *)





(** ** Definitions used to state the properties *)

(** [a] with [os.getcwd()] replaced by [d]. *)
Definition with_cwd (d : string) (a : Ambient) : Ambient :=
  {| environ := environ a; getpid := getpid a; getcwd := d;
     datetime_now := datetime_now a; platform_system := platform_system a;
     platform_release := platform_release a; sys_version := sys_version a |}.

(** The system-info fragment as the specification words it: process id,
    current working directory, packaged-mode flag and timestamp, each one
    read from the process when the call is made. *)
Definition snapshot_fresh (a : Ambient) : FT :=
  Div [ H2 [Text "System Information"] [];
        Ul [ Li [Text ("Process ID: " +:+ str_of_int (getpid a))] [];
             Li [Text ("Working Directory: " +:+ getcwd a)] [];
             Li [Text ("AppImage: " +:+
                       (if truthy (environ a !! "APPIMAGE") then "Yes" else "No"))] [];
             Li [Text ("Timestamp: " +:+ strftime (datetime_now a))] [] ] [];
        refresh_button ]
      [("id", AStr "system-info")].

Definition is_print (e : effect) : bool :=
  match e with Print _ => true | _ => false end.

(** The trace starts no process and opens no browser. *)
Definition launches_nothing (tr : list effect) : bool :=
  forallb is_print tr.


(** The tasks of the [POST /add-todo] requests of a sequence, in the order
    they arrive. *)
Definition tasks_of (reqs : list (Ambient * Request)) : list string :=
  flat_map (fun ar => match snd ar with
                      | PostAddTodo task => [task]
                      | _ => []
                      end) reqs.

(** The element an htmx target [#id] selects: the first element, in
    document order, whose [id] attribute is [id]. *)
Definition has_id (id : string) (attrs : list (string * attr_val)) : bool :=
  existsb (fun kv => match snd kv with
                     | AStr v => String.eqb (fst kv) "id" && String.eqb v id
                     | ABool _ => false
                     end) attrs.

Fixpoint find_id (id : string) (ft : FT) : option FT :=
  match ft with
  | Elem tag children attrs =>
      if has_id id attrs then Some ft
      else fold_right (fun child later =>
                         match find_id id child with
                         | Some found => Some found
                         | None => later
                         end) None children
  | Text _ | NoneChild => None
  end.

(** The commands of the [Popen] calls of a trace, in order. *)
Definition popens (tr : list effect) : list (list string) :=
  flat_map (fun e => match e with Popen cmd => [cmd] | _ => [] end) tr.

(** An effect that puts a browser on the screen: a [Popen] that starts its
    process, or a call of the default opener. *)
Definition is_launch (os : Launcher) (e : effect) : bool :=
  match e with
  | Popen cmd => match popen os cmd with None => true | Some _ => false end
  | WebbrowserOpen _ _ => true
  | Print _ => false
  end.

Definition launches (os : Launcher) (tr : list effect) : nat :=
  length (filter (fun e => is_launch os e = true) tr).

(** The socket calls are none at all, or begin with the creation of the
    socket and end with its closing. *)
Definition socket_closed (calls : list sockcall) : bool :=
  match calls with
  | [] => true
  | SockCreate :: rest =>
      match last rest with Some SockClose => true | _ => false end
  | _ => false
  end.

(** The candidate paths [mkdtemp] examines before it reaches [name]. *)
Definition candidate (prefix : string) (fs : FS) (name : string) : string :=
  path_join (tmpdir fs) (prefix +:+ name).

(** ** Theorems *)

Example str_of_int_examples :
  str_of_int 0 = "0" /\ str_of_int 42 = "42" /\ str_of_int (-7) = "-7".
Proof. repeat split. Qed.

Lemma increments_counter (n : nat) (st : State) :
  counter (increments n st) = counter st + Z.of_nat n.
Proof.
  induction n as [|n IH]; [simpl; lia|].
  change (increments (S n) st) with (fst (increment (increments n st))).
  cbn [increment fst counter]. rewrite IH. lia.
Qed.

Lemma increments_todos (n : nat) (st : State) :
  todos (increments n st) = todos st.
Proof.
  induction n as [|n IH]; [done|].
  change (increments (S n) st) with (fst (increment (increments n st))).
  cbn [increment fst todos]. exact IH.
Qed.

(** C1: starting from the initial counter, [N] calls of [increment] leave
    the counter equal to [N]; every single call adds exactly one and
    returns the span that displays the new value. *)
Theorem increment_n_calls :
  (forall N : nat, counter (increments N init) = Z.of_nat N) /\
  (forall st : State,
      counter (fst (increment st)) = counter st + 1 /\
      snd (increment st) =
        Span [Text ("Count: " +:+ str_of_int (counter (fst (increment st))))]
             [("id", AStr "counter")]).
Proof.
  split.
  - intros N. rewrite increments_counter. simpl. lia.
  - intros st. split; reflexivity.
Qed.

(** *** The task list *)

Lemma add_todos_app (tasks : list string) (st : State) :
  todos (add_todos tasks st) = (todos st ++ tasks)%list.
Proof.
  revert st. induction tasks as [|task tasks IH]; intros st.
  - simpl. by rewrite app_nil_r.
  - change (add_todos (task :: tasks) st)
      with (add_todos tasks (fst (add_todo task st))).
    rewrite IH. cbn [add_todo fst todos]. by rewrite <- app_assoc.
Qed.

Lemma add_todos_counter (tasks : list string) (st : State) :
  counter (add_todos tasks st) = counter st.
Proof.
  revert st. induction tasks as [|task tasks IH]; intros st; [done|].
  change (add_todos (task :: tasks) st)
    with (add_todos tasks (fst (add_todo task st))).
  by rewrite IH.
Qed.

Example add_todo_scenario :
  todos (add_todos ["buy milk"; ""] (increments 2 init)) = ["buy milk"; ""] /\
  counter (add_todos ["buy milk"; ""] (increments 2 init)) = 2.
Proof. split; reflexivity. Qed.

(** C2: for every sequence of task strings, empty strings and repeated
    strings included, the task list after adding them one by one is that
    very sequence: as many entries as additions, in insertion order, each
    string as it was given; every call returns the whole updated list. *)
Theorem add_todo_sequence :
  (forall tasks : list string,
      todos (add_todos tasks init) = tasks /\
      length (todos (add_todos tasks init)) = length tasks) /\
  (forall (task : string) (st : State),
      todos (fst (add_todo task st)) = (todos st ++ [task])%list /\
      snd (add_todo task st) =
        Ul (map (fun todo => Li [Text todo] []) (todos st ++ [task]))
           [("id", AStr "todo-list")]).
Proof.
  split.
  - intros tasks. rewrite add_todos_app. done.
  - intros task st. split; reflexivity.
Qed.

(** *** The counter under every request *)

Lemma handle_counter (g : Globals) (a : Ambient) (r : Request) (st : State) :
  counter (fst (handle g a r st)) =
  counter st + (if is_increment r then 1 else 0).
Proof. destruct r; cbn; lia. Qed.

Lemma serve_counter (g : Globals) (reqs : list (Ambient * Request)) (st : State) :
  counter (serve g reqs st) = counter st + Z.of_nat (count_increments reqs).
Proof.
  revert st. induction reqs as [|[a r] reqs IH]; intros st.
  - cbn. lia.
  - change (serve g ((a, r) :: reqs) st)
      with (serve g reqs (fst (handle g a r st))).
    rewrite IH, handle_counter. unfold count_increments.
    rewrite filter_cons. cbn [snd].
    destruct r; cbn [is_increment]; case_decide; try done; cbn [length]; lia.
Qed.

(** C9: the counter is zero at start; [increment] changes it by exactly
    one and no other handler changes it; so after any sequence of requests
    it is the number of increment requests served, never negative. *)
Theorem counter_invariant :
  counter init = 0 /\
  (forall (g : Globals) (a : Ambient) (r : Request) (st : State),
      counter (fst (handle g a r st)) =
      match r with
      | PostIncrement => counter st + 1
      | GetIndex | PostAddTodo _ | GetSystemInfo => counter st
      end) /\
  (forall (g : Globals) (reqs : list (Ambient * Request)),
      counter (serve g reqs init) = Z.of_nat (count_increments reqs) /\
      0 <= counter (serve g reqs init)).
Proof.
  split; [done|]. split.
  - intros g a r st. rewrite handle_counter. destruct r; cbn; lia.
  - intros g reqs. rewrite serve_counter. cbn. lia.
Qed.

(** *** The browser launcher *)

Lemma lower_char_idemp (c : ascii) : lower_char (lower_char c) = lower_char c.
Proof.
  destruct c as [[] [] [] [] [] [] [] []]; reflexivity.
Qed.

Lemma lower_idemp (s : string) : lower (lower s) = lower s.
Proof.
  induction s as [|c s IH]; [done|].
  cbn [lower]. by rewrite lower_char_idemp, IH.
Qed.

Lemma environ_get_insert (env : gmap string string) (k v d : string) :
  environ_get (<[k:=v]> env) k d = v.
Proof. unfold environ_get. by rewrite lookup_insert_eq. Qed.

(** [open_browser] looks at the environment only through the lowercased
    mode. *)
Lemma open_browser_mode (env env' : gmap string string) (plat : string)
    (os : Launcher) (url : string) :
  lower (environ_get env "FASTHTML_BROWSER" "default") =
  lower (environ_get env' "FASTHTML_BROWSER" "default") ->
  open_browser env plat os url = open_browser env' plat os url.
Proof. intros H. unfold open_browser. by rewrite H. Qed.

(** C10: the mode is lowercased before it is compared, so for every value
    [v] of FASTHTML_BROWSER the launcher behaves as it does for [v]
    lowercased; "NONE" and "App" lowercase to "none" and "app". *)
Theorem browser_mode_case_insensitive :
  (forall (env : gmap string string) (v plat : string) (os : Launcher) (url : string),
      open_browser (<["FASTHTML_BROWSER" := v]> env) plat os url =
      open_browser (<["FASTHTML_BROWSER" := lower v]> env) plat os url) /\
  lower "NONE" = "none" /\ lower "None" = "none" /\
  lower "App" = "app" /\ lower "APP" = "app".
Proof.
  split; [|by repeat split].
  intros env v plat os url. apply open_browser_mode.
  by rewrite !environ_get_insert, lower_idemp.
Qed.

(** C8: with FASTHTML_BROWSER set to none, [open_browser] prints the
    server URL and the notice, starts no subprocess, does not call the
    default-browser opener, and returns. *)
Theorem browser_none_prints_url (env : gmap string string) (plat : string)
    (os : Launcher) (url : string) :
  env !! "FASTHTML_BROWSER" = Some "none" ->
  open_browser env plat os url =
    ([Print ("Server running at " +:+ url);
      Print "Browser auto-open disabled. Please open manually."], Ok tt) /\
  launches_nothing (fst (open_browser env plat os url)) = true.
Proof.
  intros H. unfold open_browser, environ_get. rewrite H. by split.
Qed.

Lemma browser_none_prints_url_witness :
  let env : gmap string string := {["FASTHTML_BROWSER" := "none"]} in
  let os := mkLauncher (fun _ => None) (fun _ => true) in
  open_browser env "linux" os "http://127.0.0.1:5000" =
    ([Print "Server running at http://127.0.0.1:5000";
      Print "Browser auto-open disabled. Please open manually."], Ok tt) /\
  launches_nothing (fst (open_browser env "linux" os "http://127.0.0.1:5000")) = true.
Proof.
  intros env os.
  apply (browser_none_prints_url env "linux" os "http://127.0.0.1:5000").
  reflexivity.
Defined.

(** An exception leaves the loop only if some candidate raised it, and it
    is never [FileNotFoundError]. *)
Lemma try_browsers_raised (os : Launcher) (cmds : list (list string))
    (tr : list effect) (e : exn) :
  try_browsers os cmds = (tr, Raised e) ->
  e <> FileNotFoundError /\ exists cmd, cmd ∈ cmds /\ popen os cmd = Some e.
Proof.
  revert tr. induction cmds as [|cmd cmds IH]; intros tr; cbn [try_browsers].
  - discriminate.
  - destruct (popen os cmd) as [e'|] eqn:Hp; [|discriminate].
    destruct (try_browsers os cmds) as [tr' ex'] eqn:Hrec.
    destruct e'; intros [= Htr Hex]; subst;
      try (split; [discriminate | exists cmd; split; [left | done]]).
    destruct (IH tr' eq_refl) as [Hne (c & Hin & Hc)].
    split; [done|]. exists c. split; [by right | done].
Qed.

(** Candidates whose executable is missing are passed over; the first one
    that starts ends the loop. *)
Lemma try_browsers_first_spawn (os : Launcher) (pre post : list (list string))
    (cmd : list string) :
  (forall c, c ∈ pre -> popen os c = Some FileNotFoundError) ->
  popen os cmd = None ->
  try_browsers os (pre ++ cmd :: post) = (map Popen (pre ++ [cmd]), Returned).
Proof.
  intros Hpre Hcmd. induction pre as [|c pre IH]; cbn [app map try_browsers].
  - by rewrite Hcmd.
  - rewrite (Hpre c) by left. rewrite IH; [done|].
    intros c' Hc'. apply Hpre. by right.
Qed.

Lemma try_browsers_none_found (os : Launcher) (cmds : list (list string)) :
  (forall c, c ∈ cmds -> popen os c = Some FileNotFoundError) ->
  try_browsers os cmds = (map Popen cmds, Exhausted).
Proof.
  intros Hall. induction cmds as [|c cmds IH]; cbn [map try_browsers]; [done|].
  rewrite (Hall c) by left. rewrite IH; [done|].
  intros c' Hc'. apply Hall. by right.
Qed.

(** When every failure is a missing executable, the loop ends by [return]
    or by running out of candidates. *)
Lemma try_browsers_swallows (os : Launcher) (cmds : list (list string)) :
  (forall cmd e, cmd ∈ cmds -> popen os cmd = Some e -> e = FileNotFoundError) ->
  forall e, snd (try_browsers os cmds) <> Raised e.
Proof.
  intros Hall e Hsnd.
  destruct (try_browsers os cmds) as [tr ex] eqn:Htry. cbn in Hsnd. subst ex.
  destruct (try_browsers_raised _ _ _ _ Htry) as [Hne (c & Hin & Hc)].
  apply Hne. by apply (Hall c).
Qed.










(** C7, as the code has it: in app mode on Linux the candidates are
    google-chrome, chromium and firefox, tried in that order; candidates
    whose executable is not found are passed over, and the first candidate
    that starts ends the procedure; when no executable is found at all,
    and on every other platform without trying any, the launcher goes on
    to the default browser. *)
Theorem app_mode_chain (env : gmap string string) (plat : string)
    (os : Launcher) (url : string) :
  lower (environ_get env "FASTHTML_BROWSER" "default") = "app" ->
  browsers url = [ ["google-chrome"; "--app=" +:+ url];
                   ["chromium"; "--app=" +:+ url];
                   ["firefox"; "--new-window"; url] ] /\
  (plat = "linux" ->
   forall pre cmd post,
     browsers url = (pre ++ cmd :: post)%list ->
     (forall c, c ∈ pre -> popen os c = Some FileNotFoundError) ->
     popen os cmd = None ->
     open_browser env plat os url =
       (Print ("Opening in app mode at " +:+ url) :: map Popen (pre ++ [cmd]),
        Ok tt)) /\
  (plat = "linux" ->
   (forall c, c ∈ browsers url -> popen os c = Some FileNotFoundError) ->
   open_browser env plat os url =
     (Print ("Opening in app mode at " +:+ url)
        :: (map Popen (browsers url) ++ open_default os url)%list,
      Ok tt)) /\
  (plat <> "linux" ->
   open_browser env plat os url =
     (Print ("Opening in app mode at " +:+ url) :: open_default os url, Ok tt)).
Proof.
  intros Hmode. split; [done|].
  unfold open_browser. rewrite Hmode.
  destruct (decide ("app" = "none")) as [Hn|_]; [discriminate Hn|].
  destruct (decide ("app" = "app")) as [_|Hn]; [|done].
  repeat split.
  - intros -> pre cmd post Hsplit Hpre Hcmd.
    destruct (decide ("linux" = "linux")) as [_|Hn]; [|done].
    by rewrite Hsplit, (try_browsers_first_spawn os pre post cmd Hpre Hcmd).
  - intros -> Hall.
    destruct (decide ("linux" = "linux")) as [_|Hn]; [|done].
    by rewrite (try_browsers_none_found os _ Hall).
  - intros Hplat. by destruct (decide (plat = "linux")).
Qed.

Lemma app_mode_chain_witness :
  let env : gmap string string := {["FASTHTML_BROWSER" := "App"]} in
  let url := "http://127.0.0.1:5000" in
  let chromium_only := mkLauncher
    (fun cmd => match cmd with
                | "chromium" :: _ => None
                | _ => Some FileNotFoundError
                end) (fun _ => true) in
  let nothing := mkLauncher (fun _ => Some FileNotFoundError) (fun _ => false) in
  open_browser env "linux" chromium_only url =
    ([Print "Opening in app mode at http://127.0.0.1:5000";
      Popen ["google-chrome"; "--app=http://127.0.0.1:5000"];
      Popen ["chromium"; "--app=http://127.0.0.1:5000"]], Ok tt) /\
  open_browser env "linux" nothing url =
    ([Print "Opening in app mode at http://127.0.0.1:5000";
      Popen ["google-chrome"; "--app=http://127.0.0.1:5000"];
      Popen ["chromium"; "--app=http://127.0.0.1:5000"];
      Popen ["firefox"; "--new-window"; "http://127.0.0.1:5000"];
      Print "Opening in browser at http://127.0.0.1:5000";
      WebbrowserOpen "http://127.0.0.1:5000" false], Ok tt) /\
  open_browser env "darwin" nothing url =
    ([Print "Opening in app mode at http://127.0.0.1:5000";
      Print "Opening in browser at http://127.0.0.1:5000";
      WebbrowserOpen "http://127.0.0.1:5000" false], Ok tt).
Proof.
  intros env url chromium_only nothing. split; [|split].
  - destruct (app_mode_chain env "linux" chromium_only url eq_refl)
      as (_ & Hfirst & _ & _).
    apply (Hfirst eq_refl [["google-chrome"; "--app=" +:+ url]]
             ["chromium"; "--app=" +:+ url]
             [["firefox"; "--new-window"; url]]).
    + reflexivity.
    + intros c Hc. apply list_elem_of_singleton in Hc. by subst c.
    + reflexivity.
  - destruct (app_mode_chain env "linux" nothing url eq_refl)
      as (_ & _ & Hnone & _).
    apply Hnone; [reflexivity | by intros c _].
  - destruct (app_mode_chain env "darwin" nothing url eq_refl)
      as (_ & _ & _ & Hother).
    by apply Hother.
Defined.

(** C7 as stated fails when a spawn fails for another reason than a
    missing executable: google-chrome raises [PermissionError], chromium
    would start; the launcher stops at google-chrome, never tries
    chromium, and does not go on to the default browser.  Nor does it when
    every candidate fails that way. *)
Lemma permission_error_stops_chain :
  let env : gmap string string := {["FASTHTML_BROWSER" := "app"]} in
  let url := "http://127.0.0.1:5000" in
  let chrome_denied := mkLauncher
    (fun cmd => match cmd with
                | "google-chrome" :: _ => Some PermissionError
                | _ => None
                end) (fun _ => true) in
  let all_denied := mkLauncher (fun _ => Some PermissionError) (fun _ => true) in
  popen chrome_denied ["chromium"; "--app=" +:+ url] = None /\
  open_browser env "linux" chrome_denied url =
    ([Print "Opening in app mode at http://127.0.0.1:5000";
      Popen ["google-chrome"; "--app=http://127.0.0.1:5000"]],
     Raise PermissionError) /\
  (forall c, c ∈ browsers url -> popen all_denied c <> None) /\
  open_browser env "linux" all_denied url =
    ([Print "Opening in app mode at http://127.0.0.1:5000";
      Popen ["google-chrome"; "--app=http://127.0.0.1:5000"]],
     Raise PermissionError).
Proof. repeat split. by intros c _. Qed.

(** *** The port *)

Lemma kernel_pick_Some (net : Net) (p : Z) :
  kernel_pick net = Some p -> p ∈ ephemeral net /\ p ∉ bound net.
Proof.
  unfold kernel_pick. intros H. apply find_some in H as [Hin Hfree].
  split; [by apply list_elem_of_In | by apply bool_decide_eq_true in Hfree].
Qed.

Lemma kernel_pick_None (net : Net) :
  kernel_pick net = None -> forall p, p ∈ ephemeral net -> p ∈ bound net.
Proof.
  unfold kernel_pick. intros H p Hp.
  apply list_elem_of_In in Hp.
  pose proof (find_none _ _ H p Hp) as Hb. cbn in Hb.
  apply bool_decide_eq_false in Hb. by apply dec_stable.
Qed.

Lemma bind_then_close (b : gset Z) (p : Z) :
  p ∉ b -> (b ∪ {[p]}) ∖ {[p]} = b.
Proof.
  intros Hfree. apply set_eq. intros x.
  rewrite elem_of_difference, elem_of_union, elem_of_singleton.
  split.
  - by intros [[Hx | ->] Hne].
  - intros Hx. split; [by left|]. by intros ->.
Qed.

(** The probe socket leaves the kernel's table as it found it. *)
Lemma find_free_port_spec (net : Net) :
  (exists p, find_free_port net =
               (Ok p, net, [SockCreate; SockBind p; SockReuseAddr;
                            SockGetName p; SockClose]) /\
             p ∈ ephemeral net /\ p ∉ bound net) \/
  (find_free_port net = (Raise OSError, net, [SockCreate; SockBindFailed; SockClose]) /\
   forall p, p ∈ ephemeral net -> p ∈ bound net).
Proof.
  unfold find_free_port. destruct (kernel_pick net) as [p|] eqn:Hpick.
  - left. exists p. destruct (kernel_pick_Some _ _ Hpick) as [Hin Hfree].
    split; [|done]. destruct net as [b eph]. cbn in *.
    by rewrite bind_then_close.
  - right. split; [done|]. by apply kernel_pick_None.
Qed.

Example py_int_examples :
  py_int "5000" = Ok 5000 /\ py_int "8080" = Ok 8080 /\
  py_int " 5000 " = Ok 5000 /\ py_int "5_000" = Ok 5000 /\
  py_int "" = Raise ValueError /\ py_int "http" = Raise ValueError.
Proof. by repeat split. Qed.



Example resolve_port_absent :
  fst (fst (resolve_port ∅ {| bound := {[32768; 32769]};
                              ephemeral := [32768; 32769; 32770] |})) = Ok 32770.
Proof. reflexivity. Qed.

(** *** The working directory *)

(** What [mkdtemp] returns is a path that did not exist, now created,
    named by the prefix and one of the candidate names; nothing else
    changes. *)
Lemma mkdtemp_Ok (prefix : string) (names : list string) (fs fs1 : FS) (d : string) :
  mkdtemp prefix names fs = Ok (d, fs1) ->
  (d ∉ paths fs) /\
  paths fs1 = paths fs ∪ {[d]} /\
  cwd fs1 = cwd fs /\
  exists name, name ∈ names /\ d = path_join (tmpdir fs) (prefix +:+ name).
Proof.
  induction names as [|name names IH]; cbn [mkdtemp]; [discriminate|].
  case_bool_decide as Hex.
  - intros H. destruct (IH H) as (? & ? & ? & n & Hn & ->).
    repeat split; try done. exists n. split; [by right | done].
  - destruct (tmp_writable fs); [|discriminate].
    intros [= <- <-]. cbn. repeat split; try done.
    exists name. split; [by left | done].
Qed.

(** [mkdtemp] succeeds as soon as one candidate name is free and the
    temporary directory is writable. *)
Lemma mkdtemp_total (prefix : string) (names : list string) (fs : FS) :
  tmp_writable fs = true ->
  (exists name, name ∈ names /\
                path_join (tmpdir fs) (prefix +:+ name) ∉ paths fs) ->
  exists d fs1, mkdtemp prefix names fs = Ok (d, fs1).
Proof.
  intros Hw (n & Hn & Hfree).
  induction names as [|name names IH]; [by apply elem_of_nil in Hn|].
  cbn [mkdtemp]. case_bool_decide as Hex.
  - apply elem_of_cons in Hn as [-> | Hn]; [done | by apply IH].
  - rewrite Hw. by eexists _, _.
Qed.

(** C4, as the code has it: the test is the truth value of the variable.
    With APPIMAGE set to a non-empty string (and a temporary directory
    that can be created), the working directory after start-up is a
    directory that did not exist before, created under the temporary
    directory with the prefix fasthtml-app- and different from the
    original working directory; with APPIMAGE absent or empty the working
    directory and the file system are left as they were. *)
Theorem setup_work_dir_correct (env : gmap string string) (names : list string)
    (fs : FS) :
  (forall s,
      env !! "APPIMAGE" = Some s -> s <> "" ->
      tmp_writable fs = true ->
      (exists name, name ∈ names /\
         path_join (tmpdir fs) ("fasthtml-app-" +:+ name) ∉ paths fs) ->
      cwd fs ∈ paths fs ->
      exists d fs',
        setup_work_dir env names fs = Ok (d, fs') /\
        cwd fs' = d /\
        (d ∉ paths fs) /\ d ∈ paths fs' /\
        d <> cwd fs /\
        exists name, name ∈ names /\
          d = path_join (tmpdir fs) ("fasthtml-app-" +:+ name)) /\
  (env !! "APPIMAGE" = None \/ env !! "APPIMAGE" = Some "" ->
   setup_work_dir env names fs = Ok (cwd fs, fs)).
Proof.
  split.
  - intros s Hs Hne Hw Hfree Hcwd. unfold setup_work_dir. rewrite Hs. cbn [truthy].
    destruct (decide (s = "")) as [|_]; [done|].
    destruct (mkdtemp_total "fasthtml-app-" names fs Hw Hfree) as (d & fs1 & Hmk).
    rewrite Hmk.
    destruct (mkdtemp_Ok _ _ _ _ _ Hmk) as (Hnew & Hpaths & _ & Hname).
    exists d, (chdir d fs1). repeat split; try done.
    + cbn. rewrite Hpaths. apply elem_of_union_r. by apply elem_of_singleton.
    + intros ->. done.
  - unfold setup_work_dir. by intros [-> | ->].
Qed.

Lemma setup_work_dir_correct_witness :
  let fs := {| paths := {["/home/user"; "/tmp"; "/tmp/fasthtml-app-aaaa"]};
               cwd := "/home/user"; tmpdir := "/tmp"; tmp_writable := true |} in
  let names := ["aaaa"; "k3x9"] in
  (exists d fs',
      setup_work_dir {["APPIMAGE" := "/opt/demo.AppImage"]} names fs = Ok (d, fs') /\
      cwd fs' = d /\
      (d ∉ paths fs) /\ d ∈ paths fs' /\
      d <> cwd fs /\
      exists name, name ∈ names /\
        d = path_join (tmpdir fs) ("fasthtml-app-" +:+ name)) /\
  setup_work_dir ∅ names fs = Ok (cwd fs, fs).
Proof.
  intros fs names. split.
  - apply (proj1 (setup_work_dir_correct {["APPIMAGE" := "/opt/demo.AppImage"]}
                    names fs) "/opt/demo.AppImage").
    + reflexivity.
    + discriminate.
    + reflexivity.
    + exists "k3x9". split; [by right; left|]. by vm_compute.
    + by vm_compute.
  - apply (proj2 (setup_work_dir_correct ∅ names fs)). left. reflexivity.
Defined.

Example setup_work_dir_packaged :
  let fs := {| paths := {["/home/user"; "/tmp"; "/tmp/fasthtml-app-aaaa"]};
               cwd := "/home/user"; tmpdir := "/tmp"; tmp_writable := true |} in
  match setup_work_dir {["APPIMAGE" := "/opt/demo.AppImage"]} ["aaaa"; "k3x9"] fs with
  | Ok (d, fs') => d = "/tmp/fasthtml-app-k3x9" /\ cwd fs' = "/tmp/fasthtml-app-k3x9"
  | Raise _ => False
  end.
Proof. by vm_compute. Qed.

(** C4 as stated fails: APPIMAGE is present but empty, and start-up leaves
    the working directory where it was, although a temporary directory
    could have been created. *)
Lemma appimage_empty_keeps_cwd :
  let env : gmap string string := {["APPIMAGE" := ""]} in
  let fs := {| paths := {["/home/user"; "/tmp"]};
               cwd := "/home/user"; tmpdir := "/tmp"; tmp_writable := true |} in
  is_Some (env !! "APPIMAGE") /\
  setup_work_dir env ["k3x9"] fs = Ok ("/home/user", fs) /\
  (exists d fs', mkdtemp "fasthtml-app-" ["k3x9"] fs = Ok (d, fs')).
Proof.
  intros env fs. split; [by eexists|]. split; [reflexivity|].
  apply mkdtemp_total; [reflexivity|].
  exists "k3x9". split; [by left | by vm_compute].
Qed.

(** *** The system-info fragment *)

(** C5, as the code has it: the process id, the packaged-mode flag and
    the timestamp are read from the process at every call; the working
    directory is read at the call ([os.getcwd()]) when APPIMAGE is not
    set, and in packaged mode it is [WORK_DIR], the value bound once at
    start-up. *)
Theorem system_info_facts (g : Globals) (a : Ambient) :
  system_info g a =
  snapshot_fresh (if truthy (environ a !! "APPIMAGE")
                  then with_cwd (WORK_DIR g) a else a).
Proof.
  unfold system_info, snapshot_fresh.
  destruct (truthy (environ a !! "APPIMAGE")) eqn:Hpk; cbn; by rewrite Hpk.
Qed.

(** C5 as stated fails in packaged mode: the directory shown is the one
    bound at start-up, not the one the process is in when the call is
    made, and the fragment is the same wherever the process is. *)
Lemma system_info_packaged_shows_WORK_DIR :
  let g := {| PORT := 5000; HOST := "127.0.0.1";
              WORK_DIR := "/tmp/fasthtml-app-k3x9" |} in
  let a := {| environ := {["APPIMAGE" := "/opt/demo.AppImage"]};
              getpid := 4242; getcwd := "/home/user";
              datetime_now := mkDatetime 2024 3 7 9 5 0;
              platform_system := "Linux"; platform_release := "6.1.0";
              sys_version := "3.11.2 (main)" |} in
  system_info g a <> snapshot_fresh a /\
  system_info g a = system_info g (with_cwd "/var/empty" a).
Proof.
  intros g a. split; [|reflexivity].
  vm_compute. intros H. discriminate H.
Qed.

(** ** Further properties of the handlers *)

Lemma handle_todos (g : Globals) (a : Ambient) (r : Request) (st : State) :
  todos (fst (handle g a r st)) =
  (todos st ++ match r with PostAddTodo task => [task] | _ => [] end)%list.
Proof. destruct r; cbn; by rewrite ?app_nil_r. Qed.

Lemma serve_todos (g : Globals) (reqs : list (Ambient * Request)) (st : State) :
  todos (serve g reqs st) = (todos st ++ tasks_of reqs)%list.
Proof.
  revert st. induction reqs as [|[a r] reqs IH]; intros st.
  - cbn. by rewrite app_nil_r.
  - change (serve g ((a, r) :: reqs) st)
      with (serve g reqs (fst (handle g a r st))).
    rewrite IH, handle_todos. cbn [tasks_of flat_map snd].
    by rewrite <- app_assoc.
Qed.

(** X1: the state after serving any sequence of requests is fixed by the
    requests alone: the task list is the old list followed by the tasks
    of the add-todo requests in arrival order, the counter is the old one
    plus the number of increment requests; page loads, the process facts
    and the start-up values play no part. *)
Theorem serve_state (g : Globals) (reqs : list (Ambient * Request)) (st : State) :
  serve g reqs st =
  {| todos := todos st ++ tasks_of reqs;
     counter := counter st + Z.of_nat (count_increments reqs) |}.
Proof.
  pose proof (serve_todos g reqs st) as Ht.
  pose proof (serve_counter g reqs st) as Hc.
  destruct (serve g reqs st) as [t c]. cbn in Ht, Hc. by subst.
Qed.

(** The items of the task list carry no [id]. *)
Lemma find_id_todo_items (id : string) (l : list string) :
  fold_right (fun child later =>
                match find_id id child with
                | Some found => Some found
                | None => later
                end) None (map (fun todo => Li [Text todo] []) l) = None.
Proof. induction l as [|t l IH]; [done|]. cbn. exact IH. Qed.

Lemma find_id_todo_list (id : string) (l : list string) :
  find_id id (Ul (map (fun todo => Li [Text todo] []) l) [("id", AStr "todo-list")]) =
  if String.eqb "todo-list" id
  then Some (Ul (map (fun todo => Li [Text todo] []) l) [("id", AStr "todo-list")])
  else None.
Proof.
  unfold Ul. cbn [find_id has_id existsb fst snd].
  change (String.eqb "id" "id") with true. cbn [andb orb].
  destruct (String.eqb "todo-list" id); [done|].
  apply find_id_todo_items.
Qed.

(** The two targets of the page that show the state. *)
Lemma get_targets (g : Globals) (a : Ambient) (st : State) (page : FT) :
  get g a st = Ok page ->
  find_id "counter" page =
    Some (Span [Text ("Count: " +:+ str_of_int (counter st))]
               [("id", AStr "counter"); ("style", AStr "margin-left: 1rem;")]) /\
  find_id "todo-list" page =
    Some (Ul (map (fun todo => Li [Text todo] []) (todos st))
             [("id", AStr "todo-list")]).
Proof.
  unfold get. destruct (split_first (sys_version a)) as [pyver|]; [|discriminate].
  intros [= <-]. split; reflexivity.
Qed.

(** X3: the page at [/] shows the state it is given: the element that
    [#counter] selects displays the current counter, and the element that
    [#todo-list] selects lists the current tasks, one item each, in
    order. *)
Theorem index_page_shows_state (g : Globals) (a : Ambient) (st : State) (page : FT) :
  get g a st = Ok page ->
  find_id "counter" page =
    Some (Span [Text ("Count: " +:+ str_of_int (counter st))]
               [("id", AStr "counter"); ("style", AStr "margin-left: 1rem;")]) /\
  find_id "todo-list" page =
    Some (Ul (map (fun todo => Li [Text todo] []) (todos st))
             [("id", AStr "todo-list")]).
Proof. apply get_targets. Qed.

Lemma index_page_shows_state_witness :
  let g := {| PORT := 5000; HOST := "127.0.0.1"; WORK_DIR := "/home/user" |} in
  let a := {| environ := ∅; getpid := 4242; getcwd := "/home/user";
              datetime_now := mkDatetime 2024 3 7 9 5 0;
              platform_system := "Linux"; platform_release := "6.1.0";
              sys_version := "3.11.2 (main, May 12 2024)" |} in
  let st := {| todos := ["buy milk"; ""]; counter := 2 |} in
  exists page,
    get g a st = Ok page /\
    find_id "counter" page =
      Some (Span [Text "Count: 2"]
                 [("id", AStr "counter"); ("style", AStr "margin-left: 1rem;")]) /\
    find_id "todo-list" page =
      Some (Ul [Li [Text "buy milk"] []; Li [Text ""] []]
               [("id", AStr "todo-list")]).
Proof.
  intros g a st.
  destruct (get g a st) as [page|e] eqn:Hget; [|discriminate Hget].
  exists page. split; [reflexivity|].
  exact (index_page_shows_state g a st page Hget).
Defined.

(** X4: what the page at [/] shows after a change is what the change
    answered: after [add_todo] the element that [#todo-list] selects is
    the fragment [add_todo] returned, and after [increment] the element
    that [#counter] selects has the text of the fragment [increment]
    returned. *)
Theorem page_agrees_with_fragments (g : Globals) (a : Ambient) (st : State) :
  (forall task page,
      get g a (fst (add_todo task st)) = Ok page ->
      find_id "todo-list" page = Some (snd (add_todo task st))) /\
  (forall page,
      get g a (fst (increment st)) = Ok page ->
      exists text,
        snd (increment st) = Span [Text text] [("id", AStr "counter")] /\
        find_id "counter" page =
          Some (Span [Text text]
                     [("id", AStr "counter"); ("style", AStr "margin-left: 1rem;")])).
Proof.
  split.
  - intros task page Hget.
    by destruct (get_targets _ _ _ _ Hget) as [_ ->].
  - intros page Hget.
    destruct (get_targets _ _ _ _ Hget) as [-> _].
    by eexists.
Qed.

Lemma page_agrees_with_fragments_witness :
  let g := {| PORT := 5000; HOST := "127.0.0.1"; WORK_DIR := "/home/user" |} in
  let a := {| environ := ∅; getpid := 4242; getcwd := "/home/user";
              datetime_now := mkDatetime 2024 3 7 9 5 0;
              platform_system := "Linux"; platform_release := "6.1.0";
              sys_version := "3.11.2 (main, May 12 2024)" |} in
  let st := {| todos := ["buy milk"]; counter := 2 |} in
  exists page,
    get g a (fst (add_todo "call home" st)) = Ok page /\
    find_id "todo-list" page =
      Some (Ul [Li [Text "buy milk"] []; Li [Text "call home"] []]
               [("id", AStr "todo-list")]).
Proof.
  intros g a st.
  destruct (get g a (fst (add_todo "call home" st))) as [page|e] eqn:Hget;
    [|discriminate Hget].
  exists page. split; [reflexivity|].
  exact (proj1 (page_agrees_with_fragments g a st) "call home" page Hget).
Defined.

(** X5: the system-information block of the page at [/] against what
    [/system-info] returns.  In packaged mode the two are the same tree.
    Otherwise the page's list has one more item than the fragment, an
    empty one where the temporary directory would be named: that line is
    written in the branch taken only when APPIMAGE is unset, so it is
    never shown. *)
Theorem index_page_system_block (g : Globals) (a : Ambient) (st : State) (page : FT) :
  get g a st = Ok page ->
  find_id "system-info" page =
    Some (if truthy (environ a !! "APPIMAGE") then system_info g a
          else
            Div [ H2 [Text "System Information"] [];
                  Ul [ Li [Text ("Process ID: " +:+ str_of_int (getpid a))] [];
                       Li [Text ("Working Directory: " +:+ getcwd a)] [];
                       Li [NoneChild] [];
                       Li [Text "AppImage: No"] [];
                       Li [Text ("Timestamp: " +:+ strftime (datetime_now a))] [] ] [];
                  refresh_button ]
                [("id", AStr "system-info")]).
Proof.
  unfold get. destruct (split_first (sys_version a)) as [pyver|]; [|discriminate].
  intros [= <-].
  pose proof (find_id_todo_list "system-info" (todos st)) as Hul.
  change (String.eqb "todo-list" "system-info") with false in Hul. cbv iota in Hul.
  set (ul := Ul (map (fun todo => Li [Text todo] []) (todos st)) _) in *.
  unfold system_info.
  destruct (truthy (environ a !! "APPIMAGE"));
    cbn -[ul]; rewrite Hul; reflexivity.
Qed.

Lemma index_page_system_block_witness :
  let g := {| PORT := 5000; HOST := "127.0.0.1";
              WORK_DIR := "/tmp/fasthtml-app-k3x9" |} in
  let a := {| environ := {["APPIMAGE" := "/opt/demo.AppImage"]};
              getpid := 4242; getcwd := "/tmp/fasthtml-app-k3x9";
              datetime_now := mkDatetime 2024 3 7 9 5 0;
              platform_system := "Linux"; platform_release := "6.1.0";
              sys_version := "3.11.2 (main, May 12 2024)" |} in
  let st := {| todos := ["buy milk"]; counter := 2 |} in
  exists page,
    get g a st = Ok page /\
    find_id "system-info" page = Some (system_info g a).
Proof.
  intros g a st.
  destruct (get g a st) as [page|e] eqn:Hget; [|discriminate Hget].
  exists page. split; [reflexivity|].
  exact (index_page_system_block g a st page Hget).
Defined.

(** ** Further properties of the start-up code *)

(** X6: resolving the port leaves no socket behind: whatever the
    environment holds and whether the bind succeeds or fails, the set of
    bound ports afterwards is the one before, and the socket calls made,
    if any, begin with the creation of the probe socket and end with its
    closing. *)
Theorem resolve_port_releases (env : gmap string string) (net : Net) :
  snd (fst (resolve_port env net)) = net /\
  socket_closed (snd (resolve_port env net)) = true.
Proof.
  unfold resolve_port.
  destruct (decide (environ_get env "FASTHTML_PORT" "0" <> "0")); [done|].
  destruct (find_free_port_spec net) as [(p & -> & _) | [-> _]]; done.
Qed.

Example resolve_port_not_a_number :
  resolve_port {["FASTHTML_PORT" := "http"]}
               {| bound := ∅; ephemeral := [32768] |} =
  (Raise ValueError, {| bound := ∅; ephemeral := [32768] |}, []).
Proof. reflexivity. Qed.

(** [mkdtemp] passes over the names that are taken. *)
Lemma mkdtemp_skip (prefix : string) (pre rest : list string) (fs : FS) :
  (forall n, n ∈ pre -> candidate prefix fs n ∈ paths fs) ->
  mkdtemp prefix (pre ++ rest) fs = mkdtemp prefix rest fs.
Proof.
  intros Hpre. induction pre as [|n pre IH]; [done|].
  cbn [app mkdtemp]. fold (candidate prefix fs n).
  rewrite bool_decide_eq_true_2 by (apply Hpre; left).
  apply IH. intros n' Hn'. apply Hpre. by right.
Qed.

(** X9: in packaged mode the working directory is named after the first
    candidate name that is free: names whose path exists are passed over,
    the first free one is created and entered, and later names are not
    looked at. *)
Theorem setup_work_dir_first_free (env : gmap string string)
    (pre post : list string) (name : string) (fs : FS) :
  truthy (env !! "APPIMAGE") = true ->
  tmp_writable fs = true ->
  (forall n, n ∈ pre -> candidate "fasthtml-app-" fs n ∈ paths fs) ->
  candidate "fasthtml-app-" fs name ∉ paths fs ->
  setup_work_dir env (pre ++ name :: post) fs =
    Ok (candidate "fasthtml-app-" fs name,
        {| paths := paths fs ∪ {[candidate "fasthtml-app-" fs name]};
           cwd := candidate "fasthtml-app-" fs name;
           tmpdir := tmpdir fs; tmp_writable := tmp_writable fs |}).
Proof.
  intros Hpk Hw Hpre Hfree. unfold setup_work_dir. rewrite Hpk.
  rewrite (mkdtemp_skip _ _ _ _ Hpre). cbn [mkdtemp].
  fold (candidate "fasthtml-app-" fs name).
  by rewrite bool_decide_eq_false_2, Hw.
Qed.

Lemma setup_work_dir_first_free_witness :
  let fs := {| paths := {["/home/user"; "/tmp"; "/tmp/fasthtml-app-aaaa"]};
               cwd := "/home/user"; tmpdir := "/tmp"; tmp_writable := true |} in
  setup_work_dir {["APPIMAGE" := "/opt/demo.AppImage"]} ["aaaa"; "k3x9"; "zzzz"] fs =
    Ok ("/tmp/fasthtml-app-k3x9",
        {| paths := paths fs ∪ {["/tmp/fasthtml-app-k3x9"]};
           cwd := "/tmp/fasthtml-app-k3x9";
           tmpdir := "/tmp"; tmp_writable := true |}).
Proof.
  intros fs.
  apply (setup_work_dir_first_free {["APPIMAGE" := "/opt/demo.AppImage"]}
           ["aaaa"] ["zzzz"] "k3x9" fs).
  - reflexivity.
  - reflexivity.
  - intros n Hn. apply list_elem_of_singleton in Hn as ->. by vm_compute.
  - by vm_compute.
Defined.






(** ** Further properties of the browser launcher *)

(** The loop tries candidates from the front of its list, without
    leaving one out, and starts a process only by its last call. *)
Lemma try_browsers_trace (os : Launcher) (cmds : list (list string))
    (tr : list effect) (ex : loop_exit) :
  try_browsers os cmds = (tr, ex) ->
  popens tr `prefix_of` cmds /\
  tr = map Popen (popens tr) /\
  launches os tr = match ex with Returned => 1%nat | _ => 0%nat end /\
  (ex = Exhausted -> popens tr = cmds).
Proof.
  revert tr ex. induction cmds as [|cmd cmds IH]; intros tr ex; cbn [try_browsers].
  - intros [= <- <-]. repeat split; done.
  - destruct (popen os cmd) as [e|] eqn:Hp.
    + destruct (try_browsers os cmds) as [tr' ex'] eqn:Hrec.
      destruct (IH tr' ex' eq_refl) as (Hpre & Hmap & Hn & Hall).
      assert (launches os (Popen cmd :: tr') = launches os tr') as Hskip.
      { unfold launches. rewrite filter_cons. cbn [is_launch]. rewrite Hp.
        by case_decide. }
      assert (launches os [Popen cmd] = 0%nat) as Hone.
      { unfold launches. rewrite filter_cons. cbn [is_launch]. rewrite Hp.
        by case_decide. }
      destruct e; intros [= <- <-]; cbn [popens flat_map app map];
        try (split; [by apply prefix_cons, prefix_nil|];
             split; [done|]; split; [done | discriminate]).
      fold (popens tr'). split; [by apply prefix_cons|].
      split; [by rewrite <- Hmap|]. split; [by rewrite Hskip|].
      intros Hex. by rewrite (Hall Hex).
    + intros [= <- <-]. cbn [popens flat_map app map].
      split; [by apply prefix_cons, prefix_nil|]. split; [done|].
      split; [|discriminate].
      unfold launches. rewrite filter_cons. cbn [is_launch]. rewrite Hp.
      by case_decide.
Qed.



Lemma popens_app (tr1 tr2 : list effect) :
  popens (tr1 ++ tr2) = (popens tr1 ++ popens tr2)%list.
Proof. unfold popens. apply flat_map_app. Qed.


(** X13: the subprocess calls of a run are the candidate commands from
    the first one on, in their order and without gaps; and there are none
    at all unless the mode is app and the platform is Linux. *)
Theorem open_browser_popens (env : gmap string string) (plat : string)
    (os : Launcher) (url : string) :
  popens (fst (open_browser env plat os url)) `prefix_of` browsers url /\
  (popens (fst (open_browser env plat os url)) <> [] ->
   lower (environ_get env "FASTHTML_BROWSER" "default") = "app" /\
   plat = "linux").
Proof.
  unfold open_browser, open_default.
  repeat case_decide; try (split; [apply prefix_nil | done]).
  destruct (try_browsers os (browsers url)) as [tr ex] eqn:Htry.
  destruct (try_browsers_trace _ _ _ _ Htry) as (Hpre & _ & _ & Hall).
  split; [|done].
  destruct ex; cbn [fst]; change (popens (Print ?l :: ?t)) with (popens t);
    try done.
  rewrite popens_app. cbn. rewrite app_nil_r. by rewrite (Hall eq_refl).
Qed.
